(** * Olive Contractors cost estimator: the pricing script [app.py]

    A shallow embedding of the Streamlit script.  The script has three
    parts that carry logic: [load_data] (the five CSV reads), the form
    (select boxes, number inputs and the add-on check boxes) and the
    results block (the pricing arithmetic).  Each is embedded below as
    an executable function, in the order the script runs them.

    Numbers.  The tables hold pandas numerics and the script computes
    with Python [int] and [float].  [estimate] carries the pricing
    arithmetic out on exact numbers: amounts, rates, multipliers and
    percentages are rationals [Q]; square footage and quantities, which
    come from integer number inputs, are [Z].  [estimate64] is the same
    arithmetic in the script's own number formats, int64 and binary64,
    for the usual column types; it is what shows where the formats
    make the script depart from the exact result. *)

From Stdlib Require Import QArith Qminmax Lqa.
From Stdlib Require Import PrimFloat FloatOps SpecFloat.
From stdpp Require Import gmap strings list fin_maps.

Local Open Scope string_scope.

(** ** Rows of the reference tables

    A row carries the columns the script reads ([row['column']]).  The
    id columns are opaque keys, only ever compared with [==]. *)

Module ProjectType.
Record t := mk {
  project_type_id : string;
  name : string;
  description : string;
  base_cost_per_sqft_low : Q;
  base_cost_per_sqft_high : Q;
  min_project_cost : Q
}.
End ProjectType.

Module FinishLevel.
Record t := mk {
  finish_level_id : string;
  label : string;
  description : string;
  multiplier : Q
}.
End FinishLevel.

Module Complexity.
Record t := mk {
  complexity_id : string;
  label : string;
  description : string;
  multiplier : Q
}.
End Complexity.

Module AddOn.
Record t := mk {
  addon_id : string;
  project_type_id : string;
  name : string;
  notes : string;
  pricing_type : string;
  low : Q;
  high : Q
}.
End AddOn.

(** ** Python builtins used by the results block *)

(** [max(a, b)]: the first argument is kept unless the second is
    strictly greater. *)
Definition py_max (a b : Q) : Q :=
  if Qlt_le_dec a b then b else a.

(** [d.get(k, default)]. *)
Definition dict_get {V} (d : gmap string V) (k : string) (default : V) : V :=
  match d !! k with
  | Some v => v
  | None => default
  end.

(** [x in ['per_sqft', 'per_unit']]. *)
Definition is_per_quantity (pricing_type : string) : bool :=
  bool_decide (pricing_type = "per_sqft") || bool_decide (pricing_type = "per_unit").

(** ** The add-on loop (lines 272-294) *)

(** One entry of [addon_details]. *)
Record AddonDetail := mkDetail {
  detail_name : string;
  detail_low : Q;
  detail_high : Q
}.

(** The [if / elif / else] on [addon['pricing_type']]: the pair
    [(addon_low, addon_high)] of one iteration. *)
Definition addon_contribution (addon_sqft_inputs : gmap string Z) (addon : AddOn.t) : Q * Q :=
  if bool_decide (AddOn.pricing_type addon = "flat") then
    (AddOn.low addon, AddOn.high addon)
  else if is_per_quantity (AddOn.pricing_type addon) then
    let qty := dict_get addon_sqft_inputs (AddOn.addon_id addon) 1%Z in
    ((AddOn.low addon * inject_Z qty)%Q, (AddOn.high addon * inject_Z qty)%Q)
  else
    (AddOn.low addon, AddOn.high addon).

(** The three variables the loop updates. *)
Record LoopState := mkLoop {
  addons_total_low : Q;
  addons_total_high : Q;
  addon_details : list AddonDetail
}.

Definition loop_init : LoopState :=
  mkLoop 0 0 [].

(** The loop body. *)
Definition loop_body (addon_sqft_inputs : gmap string Z) (st : LoopState) (addon : AddOn.t) : LoopState :=
  let '(addon_low, addon_high) := addon_contribution addon_sqft_inputs addon in
  mkLoop (addons_total_low st + addon_low)%Q
         (addons_total_high st + addon_high)%Q
         (addon_details st ++ [mkDetail (AddOn.name addon) addon_low addon_high])%list.

(** [for addon in selected_addons: ...]. *)
Definition addon_loop (addon_sqft_inputs : gmap string Z) (selected_addons : list AddOn.t) : LoopState :=
  fold_left (loop_body addon_sqft_inputs) selected_addons loop_init.

(** ** The pricing arithmetic (lines 252-312) *)

(** Every amount the block computes, under the script's variable names;
    [addons] holds the three variables the add-on loop leaves. *)
Record Estimate := mkEstimate {
  base_cost_low : Q;
  base_cost_high : Q;
  after_finish_low : Q;
  after_finish_high : Q;
  after_complexity_low : Q;
  after_complexity_high : Q;
  addons : LoopState;
  subtotal_low : Q;
  subtotal_high : Q;
  contingency_low : Q;
  contingency_high : Q;
  after_contingency_low : Q;
  after_contingency_high : Q;
  markup_low : Q;
  markup_high : Q;
  final_total_low : Q;
  final_total_high : Q
}.

Definition estimate
    (contingency_percent markup_percent : Q)
    (project_info : ProjectType.t)
    (finish_info : FinishLevel.t)
    (complexity_info : Complexity.t)
    (square_footage : Z)
    (selected_addons : list AddOn.t)
    (addon_sqft_inputs : gmap string Z) : Estimate :=
  let base_cost_low :=
    py_max (inject_Z square_footage * ProjectType.base_cost_per_sqft_low project_info)%Q
           (ProjectType.min_project_cost project_info) in
  let base_cost_high :=
    py_max (inject_Z square_footage * ProjectType.base_cost_per_sqft_high project_info)%Q
           (ProjectType.min_project_cost project_info) in
  let finish_multiplier := FinishLevel.multiplier finish_info in
  let after_finish_low := (base_cost_low * finish_multiplier)%Q in
  let after_finish_high := (base_cost_high * finish_multiplier)%Q in
  let complexity_multiplier := Complexity.multiplier complexity_info in
  let after_complexity_low := (after_finish_low * complexity_multiplier)%Q in
  let after_complexity_high := (after_finish_high * complexity_multiplier)%Q in
  let st := addon_loop addon_sqft_inputs selected_addons in
  let subtotal_low := (after_complexity_low + addons_total_low st)%Q in
  let subtotal_high := (after_complexity_high + addons_total_high st)%Q in
  let contingency_low := (subtotal_low * (contingency_percent / 100))%Q in
  let contingency_high := (subtotal_high * (contingency_percent / 100))%Q in
  let after_contingency_low := (subtotal_low + contingency_low)%Q in
  let after_contingency_high := (subtotal_high + contingency_high)%Q in
  let markup_low := (after_contingency_low * (markup_percent / 100))%Q in
  let markup_high := (after_contingency_high * (markup_percent / 100))%Q in
  let final_total_low := (after_contingency_low + markup_low)%Q in
  let final_total_high := (after_contingency_high + markup_high)%Q in
  mkEstimate base_cost_low base_cost_high
             after_finish_low after_finish_high
             after_complexity_low after_complexity_high
             st
             subtotal_low subtotal_high
             contingency_low contingency_high
             after_contingency_low after_contingency_high
             markup_low markup_high
             final_total_low final_total_high.

(** ** Exceptions and the error monad

    The exceptions the script can raise.  [OSError] and [ParserError]
    are what [pd.read_csv] raises for a missing or an unreadable file;
    they carry the path.  The last two are Streamlit's: a select box
    whose [index] is not the position of one of its options, and two
    widgets created under the same key. *)
Inductive Exn :=
| KeyError (key : string)
| ValueError (text : string)
| IndexError
| OSError (path : string)
| ParserError (path : string)
| StreamlitValueOutOfRangeError
| StreamlitDuplicateElementKey.

Definition bind {A B} (x : Exn + A) (k : A → Exn + B) : Exn + B :=
  match x with
  | inl e => inl e
  | inr a => k a
  end.

Notation "x ←! e1 ; e2" := (bind e1 (λ x, e2))
  (at level 20, e1 at level 100, e2 at level 200, right associativity,
   format "'[v' x  ←!  e1 ;  '/' e2 ']'").

(** [d[k]] on a dictionary with string keys. *)
Definition dict_getitem {V} (d : gmap string V) (k : string) : Exn + V :=
  match d !! k with
  | Some v => inr v
  | None => inl (KeyError k)
  end.

(** [dict(zip(keys, values))]: a later pair overwrites an earlier one
    with the same key. *)
Definition dict_zip (keys values : list string) : gmap string string :=
  foldl (λ d kv, <[kv.1 := kv.2]> d) ∅ (zip keys values).

(** ** [load_data] (lines 105-120) *)

(** [CONFIG.csv] as a frame: its columns by name, each a list of cells.
    A cell is the text read from the file. *)
Definition Frame := list (string * list string).

(** [df[column]]. *)
Fixpoint frame_getitem (df : Frame) (column : string) : Exn + list string :=
  match df with
  | [] => inl (KeyError column)
  | (c, cells) :: df' =>
      if decide (c = column) then inr cells else frame_getitem df' column
  end.

(** What [pd.read_csv] does on each of the five paths: it raises, or it
    returns the table.  The four reference tables are lists of rows. *)
Record CsvFiles := mkFiles {
  PROJECT_TYPES_csv : Exn + list ProjectType.t;
  FINISH_LEVELS_csv : Exn + list FinishLevel.t;
  STRUCTURAL_COMPLEXITY_csv : Exn + list Complexity.t;
  ADD_ONS_csv : Exn + list AddOn.t;
  CONFIG_csv : Exn + Frame
}.

Record Loaded := mkLoaded {
  project_types_df : list ProjectType.t;
  finish_levels_df : list FinishLevel.t;
  complexity_df : list Complexity.t;
  add_ons_df : list AddOn.t;
  config : gmap string string
}.

(** [inl e] is the [except] branch: [st.error] shows [e] and the five
    returned values are [None]. *)
Definition load_data (files : CsvFiles) : Exn + Loaded :=
  project_types ←! PROJECT_TYPES_csv files;
  finish_levels ←! FINISH_LEVELS_csv files;
  structural_complexity ←! STRUCTURAL_COMPLEXITY_csv files;
  add_ons ←! ADD_ONS_csv files;
  config ←! CONFIG_csv files;
  keys ←! frame_getitem config "Key";
  values ←! frame_getitem config "Value";
  inr (mkLoaded project_types finish_levels structural_complexity add_ons
                (dict_zip keys values)).

(** ** The form (lines 145-234) *)

(** An options dictionary, [dict(zip(labels, ids))], whose key order is
    observable through [list(d.keys())]: a key keeps the position of its
    first insertion and the value of its last. *)
Fixpoint options_set (d : list (string * string)) (k v : string) : list (string * string) :=
  match d with
  | [] => [(k, v)]
  | (k', v') :: d' =>
      if decide (k' = k) then (k, v) :: d' else (k', v') :: options_set d' k v
  end.

Definition options_zip (labels ids : list string) : list (string * string) :=
  foldl (λ d kv, options_set d kv.1 kv.2) [] (zip labels ids).

Definition options_keys (d : list (string * string)) : list string := d.*1.

Fixpoint options_getitem (d : list (string * string)) (k : option string) : Exn + string :=
  match d, k with
  | (k', v) :: d', Some key =>
      if decide (k' = key) then inr v else options_getitem d' k
  | _, Some key => inl (KeyError key)
  | _, None => inl (KeyError "None")
  end.

(** [st.selectbox(options=..., index=...)]: with no option at all the
    box returns [None]; otherwise [index], the position preselected,
    must be the position of an option, and the box returns the option
    at the position the user picked. *)
Definition selectbox (options : list string) (index pick : nat) : Exn + option string :=
  match options with
  | [] => inr None
  | _ :: _ =>
      if decide (index < length options)%nat then inr (options !! pick)
      else inl StreamlitValueOutOfRangeError
  end.

(** [st.number_input(min_value=..., value=...)]: the number entered,
    or [value] while the field is untouched.  The widget hands out no
    number below [min_value]: an entry below it is replaced by
    [value]. *)
Definition number_input (min_value value : Z) (entry : option Z) : Z :=
  match entry with
  | Some v => if (min_value <=? v)%Z then v else value
  | None => value
  end.

(** [df[df[id_column] == selected_id].iloc[0]]. *)
Definition iloc0 {Row} (rows : list Row) : Exn + Row :=
  match rows with
  | r :: _ => inr r
  | [] => inl IndexError
  end.

(** The pattern the script repeats for project type, finish level and
    structural complexity: build the options from two columns, let the
    user pick a label, map it back to an id and fetch that id's row.
    An id cell is text here; a blank cell, which pandas reads as NaN
    and which equals nothing, is not represented. *)
Definition select_row {Row} (label_of id_of : Row → string) (df : list Row) (index pick : nat)
    : Exn + (string * Row) :=
  let options := options_zip (label_of <$> df) (id_of <$> df) in
  selected_label ←! selectbox (options_keys options) index pick;
  selected_id ←! options_getitem options selected_label;
  info ←! iloc0 (filter (λ r, id_of r = selected_id) df);
  inr (selected_id, info).

(** [add_ons_df[add_ons_df['project_type_id'] == selected_project_id]]. *)
Definition relevant_addons (add_ons_df : list AddOn.t) (selected_project_id : string) : list AddOn.t :=
  filter (λ a, AddOn.project_type_id a = selected_project_id) add_ons_df.

(** The state of the add-on widgets, by add-on id: the check box
    [addon_<id>] and the entry of the number input [qty_<id>]. *)
Record AddonWidgets := mkAddonWidgets {
  is_checked : string → bool;
  qty_entry : string → option Z
}.

(** The keys of the add-on widgets, [addon_<id>] and [qty_<id>], are
    built from the add-on ids: Streamlit refuses the second widget of a
    key, so the section raises when two of the add-ons shown share an
    id. *)
Definition widget_keys (relevant : list AddOn.t) : Exn + unit :=
  if decide (NoDup (AddOn.addon_id <$> relevant)) then inr tt
  else inl StreamlitDuplicateElementKey.

(** One iteration of [for idx, addon in relevant_addons.iterrows()],
    on the pair [(selected_addons, addon_sqft_inputs)], past the check
    of the keys. *)
Definition addon_form_body (w : AddonWidgets) (st : list AddOn.t * gmap string Z) (addon : AddOn.t)
    : list AddOn.t * gmap string Z :=
  let is_selected := is_checked w (AddOn.addon_id addon) in
  let addon_sqft_inputs :=
    if is_selected && is_per_quantity (AddOn.pricing_type addon) then
      let qty := number_input 1
                   (if bool_decide (AddOn.pricing_type addon = "per_sqft") then 50 else 1)
                   (qty_entry w (AddOn.addon_id addon)) in
      <[AddOn.addon_id addon := qty]> st.2
    else st.2 in
  let selected_addons := if is_selected then (st.1 ++ [addon])%list else st.1 in
  (selected_addons, addon_sqft_inputs).

(** The add-on section.  With no relevant add-on the script takes the
    [else] branch and both collections stay empty, as the fold does. *)
Definition addon_form (w : AddonWidgets) (relevant : list AddOn.t) : list AddOn.t * gmap string Z :=
  foldl (addon_form_body w) ([], ∅) relevant.

(** Everything the user can set on the page. *)
Record Widgets := mkWidgets {
  project_pick : nat;
  square_footage_entry : option Z;
  finish_pick : nat;
  complexity_pick : nat;
  addon_widgets : AddonWidgets;
  show_results : bool
}.

(** What the form leaves in the script's variables. *)
Record Selection := mkSelection {
  selected_project_id : string;
  project_info : ProjectType.t;
  square_footage : Z;
  selected_finish_id : string;
  finish_info : FinishLevel.t;
  selected_complexity_id : string;
  complexity_info : Complexity.t;
  selected_addons : list AddOn.t;
  addon_sqft_inputs : gmap string Z
}.

(** Lines 145-234 on loaded data. *)
Definition form (data : Loaded) (w : Widgets) : Exn + Selection :=
  project ←! select_row ProjectType.name ProjectType.project_type_id
               (project_types_df data) 0 (project_pick w);
  let square_footage := number_input 1 500 (square_footage_entry w) in
  finish ←! select_row FinishLevel.label FinishLevel.finish_level_id
              (finish_levels_df data) 1 (finish_pick w);
  complexity ←! select_row Complexity.label Complexity.complexity_id
                  (complexity_df data) 0 (complexity_pick w);
  let relevant := relevant_addons (add_ons_df data) project.1 in
  keys_ok ←! widget_keys relevant;
  let picked := addon_form (addon_widgets w) relevant in
  inr (mkSelection project.1 project.2 square_footage finish.1 finish.2
                   complexity.1 complexity.2 picked.1 picked.2).

(** ** The results block and the page *)

Record Results := mkResults {
  currency : string;
  amounts : Estimate
}.

Section Script.

(** Python's [float] on a cell: the number the text denotes, or
    nothing when [float] raises [ValueError]. *)
Variable py_float : string → option Q.

Definition float (text : string) : Exn + Q :=
  match py_float text with
  | Some q => inr q
  | None => inl (ValueError text)
  end.

(** Lines 246-312. *)
Definition results_block
    (config : gmap string string)
    (project_info : ProjectType.t)
    (finish_info : FinishLevel.t)
    (complexity_info : Complexity.t)
    (square_footage : Z)
    (selected_addons : list AddOn.t)
    (addon_sqft_inputs : gmap string Z) : Exn + Results :=
  contingency_text ←! dict_getitem config "default_contingency_percent";
  contingency_percent ←! float contingency_text;
  markup_text ←! dict_getitem config "default_contractor_markup_percent";
  markup_percent ←! float markup_text;
  currency ←! dict_getitem config "currency";
  inr (mkResults currency
         (estimate contingency_percent markup_percent project_info finish_info
                   complexity_info square_footage selected_addons addon_sqft_inputs)).

(** What one run of the script ends in. *)
Inductive Page :=
| Stopped (e : Exn)            (* load failed: error shown, [st.stop()] *)
| Raised (e : Exn)             (* an exception left the script *)
| Rendered (r : option Results). (* form shown, with results when asked *)

(** The whole script: load, stop on a failed load, show the form and,
    once [show_results] is set, the results. *)
Definition app (files : CsvFiles) (w : Widgets) : Page :=
  match load_data files with
  | inl e => Stopped e
  | inr data =>
      match form data w with
      | inl e => Raised e
      | inr s =>
          if show_results w then
            match results_block (config data) (project_info s) (finish_info s)
                    (complexity_info s) (square_footage s)
                    (selected_addons s) (addon_sqft_inputs s) with
            | inl e => Raised e
            | inr r => Rendered (Some r)
            end
          else Rendered None
      end
  end.

End Script.

(** The worked example of the specification: 40 sq ft at 100/150 per
    sq ft with a 5000 minimum, finish 1.2, complexity 1.1, no add-ons,
    contingency 10 %, markup 15 %. *)
Definition example_project : ProjectType.t :=
  ProjectType.mk "PT1" "Kitchen" "Kitchen renovation" 100 150 5000.
Definition example_finish : FinishLevel.t :=
  FinishLevel.mk "F2" "Standard" "Mid-range finishes" (12 # 10).
Definition example_complexity : Complexity.t :=
  Complexity.mk "C2" "Minor" "Minor structural changes" (11 # 10).

(** Sample tables, configuration and widget state used to exercise the
    definitions. *)
Definition example_basement : ProjectType.t :=
  ProjectType.mk "PT2" "Basement" "Basement finishing" 60 95 15000.

Definition pot_lights : AddOn.t :=
  AddOn.mk "A1" "PT1" "Pot lights" "Priced per fixture" "per_unit" 150 250.
Definition permit : AddOn.t :=
  AddOn.mk "A2" "PT1" "Permit" "City permit" "flat" 500 1200.
Definition heated_floor : AddOn.t :=
  AddOn.mk "A3" "PT1" "Heated floor" "Priced per square foot" "per_sqft" 12 20.
Definition wet_bar : AddOn.t :=
  AddOn.mk "A4" "PT2" "Wet bar" "Basement only" "flat" 4000 9000.
Definition millwork : AddOn.t :=
  AddOn.mk "A5" "PT1" "Custom millwork" "Quoted per job" "quote" 1000 3000.

Definition example_config_frame : Frame :=
  [("Key", ["default_contingency_percent"; "default_contractor_markup_percent"; "currency"]);
   ("Value", ["10"; "15"; "CAD"])].

(** The same file without its [currency] row. *)
Definition config_frame_without_currency : Frame :=
  [("Key", ["default_contingency_percent"; "default_contractor_markup_percent"]);
   ("Value", ["10"; "15"])].

Definition example_files : CsvFiles :=
  mkFiles (inr [example_project; example_basement])
          (inr [FinishLevel.mk "F1" "Basic" "Builder grade" (8 # 10); example_finish])
          (inr [Complexity.mk "C1" "None" "No structural changes" 1; example_complexity])
          (inr [pot_lights; permit; heated_floor; wet_bar; millwork])
          (inr example_config_frame).

Definition files_without_currency : CsvFiles :=
  mkFiles (PROJECT_TYPES_csv example_files) (FINISH_LEVELS_csv example_files)
          (STRUCTURAL_COMPLEXITY_csv example_files) (ADD_ONS_csv example_files)
          (inr config_frame_without_currency).

Definition files_without_add_ons : CsvFiles :=
  mkFiles (PROJECT_TYPES_csv example_files) (FINISH_LEVELS_csv example_files)
          (STRUCTURAL_COMPLEXITY_csv example_files) (inl (OSError "ADD_ONS.csv"))
          (CONFIG_csv example_files).

Definition example_config : gmap string string :=
  dict_zip ["default_contingency_percent"; "default_contractor_markup_percent"; "currency"]
           ["10"; "15"; "CAD"].

(** [float] on the two percentage cells of the sample configuration. *)
Definition example_float (text : string) : option Q :=
  if decide (text = "10") then Some 10%Q
  else if decide (text = "15") then Some 15%Q
  else None.

(** Kitchen, 40 sq ft entered, standard finish, minor complexity; pot
    lights checked with 6 entered, permit checked. *)
Definition example_widgets : Widgets :=
  mkWidgets 0 (Some 40%Z) 1 1
            (mkAddonWidgets (λ id, bool_decide (id = "A1") || bool_decide (id = "A2"))
                            (λ id, if decide (id = "A1") then Some 6%Z else None))
            true.

(** [sum(xs)]: Python adds from the left, starting at 0. *)
Definition py_sum (xs : list Q) : Q :=
  fold_left Qplus xs 0%Q.

(** The breakdown entry the loop appends for one add-on. *)
Definition detail_of (addon_sqft_inputs : gmap string Z) (addon : AddOn.t) : AddonDetail :=
  mkDetail (AddOn.name addon)
           (addon_contribution addon_sqft_inputs addon).1
           (addon_contribution addon_sqft_inputs addon).2.

(** An outcome that is an exception. *)
Definition raises {A} (x : Exn + A) : Prop := ∃ e, x = inl e.

(** The sample files once loaded. *)
Definition example_loaded : Loaded :=
  mkLoaded [example_project; example_basement]
           [FinishLevel.mk "F1" "Basic" "Builder grade" (8 # 10); example_finish]
           [Complexity.mk "C1" "None" "No structural changes" 1; example_complexity]
           [pot_lights; permit; heated_floor; wet_bar; millwork]
           example_config.

(** ** The pricing arithmetic in the script's number formats

    Lines 252-269 and 297-312 as numpy and Python compute them on a
    data set whose rates and minimum costs are whole numbers, which
    pandas reads as int64 columns, and whose multipliers are not, which
    it reads as float64.  The percentages are Python floats.  The two
    add-on totals are taken as the loop leaves them for whole-number
    prices, Python ints; they are 0 when nothing is selected. *)

(** An int64 result: the integer reduced into [-2^63, 2^63). *)
Definition int64_wrap (z : Z) : Z :=
  ((z + 2 ^ 63) mod 2 ^ 64 - 2 ^ 63)%Z.

(** [max(a, b)] on two int64 values. *)
Definition py_max_int (a b : Z) : Z :=
  if (a <? b)%Z then b else a.

(** An integer as a float64 operand: the nearest double, ties to even. *)
Definition float_of_Z (z : Z) : PrimFloat.float :=
  SF2Prim (binary_normalize prec emax z 0 false).


Record Estimate64 := mkEstimate64 {
  base_cost_low64 : Z;
  base_cost_high64 : Z;
  after_finish_low64 : PrimFloat.float;
  after_finish_high64 : PrimFloat.float;
  after_complexity_low64 : PrimFloat.float;
  after_complexity_high64 : PrimFloat.float;
  subtotal_low64 : PrimFloat.float;
  subtotal_high64 : PrimFloat.float;
  contingency_low64 : PrimFloat.float;
  contingency_high64 : PrimFloat.float;
  after_contingency_low64 : PrimFloat.float;
  after_contingency_high64 : PrimFloat.float;
  markup_low64 : PrimFloat.float;
  markup_high64 : PrimFloat.float;
  final_total_low64 : PrimFloat.float;
  final_total_high64 : PrimFloat.float
}.

Definition estimate64
    (contingency_percent markup_percent : PrimFloat.float)
    (base_cost_per_sqft_low base_cost_per_sqft_high min_project_cost : Z)
    (finish_multiplier complexity_multiplier : PrimFloat.float)
    (square_footage : Z)
    (addons_total_low addons_total_high : Z) : Estimate64 :=
  let base_cost_low :=
    py_max_int (int64_wrap (square_footage * base_cost_per_sqft_low)) min_project_cost in
  let base_cost_high :=
    py_max_int (int64_wrap (square_footage * base_cost_per_sqft_high)) min_project_cost in
  let after_finish_low := (float_of_Z base_cost_low * finish_multiplier)%float in
  let after_finish_high := (float_of_Z base_cost_high * finish_multiplier)%float in
  let after_complexity_low := (after_finish_low * complexity_multiplier)%float in
  let after_complexity_high := (after_finish_high * complexity_multiplier)%float in
  let subtotal_low := (after_complexity_low + float_of_Z addons_total_low)%float in
  let subtotal_high := (after_complexity_high + float_of_Z addons_total_high)%float in
  let contingency_low := (subtotal_low * (contingency_percent / float_of_Z 100))%float in
  let contingency_high := (subtotal_high * (contingency_percent / float_of_Z 100))%float in
  let after_contingency_low := (subtotal_low + contingency_low)%float in
  let after_contingency_high := (subtotal_high + contingency_high)%float in
  let markup_low := (after_contingency_low * (markup_percent / float_of_Z 100))%float in
  let markup_high := (after_contingency_high * (markup_percent / float_of_Z 100))%float in
  let final_total_low := (after_contingency_low + markup_low)%float in
  let final_total_high := (after_contingency_high + markup_high)%float in
  mkEstimate64 base_cost_low base_cost_high
               after_finish_low after_finish_high
               after_complexity_low after_complexity_high
               subtotal_low subtotal_high
               contingency_low contingency_high
               after_contingency_low after_contingency_high
               markup_low markup_high
               final_total_low final_total_high.

(** The doubles the cells [1.2] and [1.1] are read as. *)
Definition float_1_2 : PrimFloat.float := 0x1.3333333333333p+0%float.
Definition float_1_1 : PrimFloat.float := 0x1.199999999999ap+0%float.

(** The largest whole number an integer number input accepts, 2^53 - 1. *)
Definition largest_square_footage : Z := 9007199254740991%Z.

(** * Properties *)

(** ** [max] *)

Lemma py_max_ge_r a b : (b <= py_max a b)%Q.
Proof.
  unfold py_max. destruct (Qlt_le_dec a b) as [Hlt | Hle].
  - apply Qle_refl.
  - exact Hle.
Qed.

Lemma py_max_ge_l a b : (a <= py_max a b)%Q.
Proof.
  unfold py_max. destruct (Qlt_le_dec a b) as [Hlt | Hle].
  - apply Qlt_le_weak, Hlt.
  - apply Qle_refl.
Qed.

Lemma py_max_Qmax a b : (py_max a b == Qmax a b)%Q.
Proof.
  unfold py_max. destruct (Qlt_le_dec a b) as [Hlt | Hle].
  - symmetry. apply Q.max_r, Qlt_le_weak, Hlt.
  - symmetry. apply Q.max_l, Hle.
Qed.

Lemma py_max_mono_l a a' b : (a <= a')%Q → (py_max a b <= py_max a' b)%Q.
Proof.
  intros Haa'. unfold py_max.
  destruct (Qlt_le_dec a b) as [Hab | Hba]; destruct (Qlt_le_dec a' b) as [Ha'b | Hba'].
  - apply Qle_refl.
  - exact Hba'.
  - apply Qle_trans with a'; [exact Haa' | apply Qlt_le_weak, Ha'b].
  - exact Haa'.
Qed.

(** ** Arithmetic steps shared by the two branches *)

Lemma percent_nonneg p : (0 <= p)%Q → (0 <= p / 100)%Q.
Proof.
  intros Hp. unfold Qdiv. apply Qmult_le_0_compat; [exact Hp | discriminate].
Qed.

Lemma add_percent_le a b p :
  (a <= b)%Q → (0 <= p)%Q → (a + a * (p / 100) <= b + b * (p / 100))%Q.
Proof.
  intros Hab Hp. apply Qplus_le_compat; [exact Hab |].
  apply Qmult_le_compat_r; [exact Hab | apply percent_nonneg, Hp].
Qed.

Lemma Qmult_one_r (x : Q) : (x * inject_Z 1)%Q = x.
Proof.
  destruct x as [n d]. unfold Qmult, inject_Z. simpl.
  by rewrite Z.mul_1_r, Pos.mul_1_r.
Qed.

(** ** The add-on loop *)

Lemma loop_body_total_low m st a :
  addons_total_low (loop_body m st a) = (addons_total_low st + (addon_contribution m a).1)%Q.
Proof. unfold loop_body. by destruct (addon_contribution m a). Qed.

Lemma loop_body_total_high m st a :
  addons_total_high (loop_body m st a) = (addons_total_high st + (addon_contribution m a).2)%Q.
Proof. unfold loop_body. by destruct (addon_contribution m a). Qed.

Lemma loop_body_details m st a :
  addon_details (loop_body m st a) = (addon_details st ++ [detail_of m a])%list.
Proof. unfold loop_body, detail_of. by destruct (addon_contribution m a). Qed.

(** The loop from any state: the details grow by one entry per add-on,
    in order, and each total grows by the left sum of that column. *)
Lemma fold_loop_body m l : ∀ st,
  let st' := fold_left (loop_body m) l st in
  addon_details st' = (addon_details st ++ (detail_of m <$> l))%list
  ∧ addons_total_low st' = fold_left Qplus (detail_low <$> (detail_of m <$> l)) (addons_total_low st)
  ∧ addons_total_high st' = fold_left Qplus (detail_high <$> (detail_of m <$> l)) (addons_total_high st).
Proof.
  induction l as [| a l IH]; intros st; simpl.
  - by rewrite app_nil_r.
  - destruct (IH (loop_body m st a)) as (Hd & Hlo & Hhi). simpl in *.
    rewrite Hd, Hlo, Hhi.
    rewrite loop_body_details, loop_body_total_low, loop_body_total_high.
    rewrite <- app_assoc. done.
Qed.

Lemma addon_loop_details m l :
  addon_details (addon_loop m l) = detail_of m <$> l.
Proof. unfold addon_loop. by destruct (fold_loop_body m l loop_init) as (-> & _ & _). Qed.

(** The loop only looks at the contributions. *)
Lemma addon_loop_ext m1 m2 l :
  (∀ a, a ∈ l → addon_contribution m1 a = addon_contribution m2 a) →
  addon_loop m1 l = addon_loop m2 l.
Proof.
  unfold addon_loop. generalize loop_init.
  induction l as [| a l IH]; intros st Hl; simpl; [done |].
  assert (loop_body m1 st a = loop_body m2 st a) as ->.
  { unfold loop_body. rewrite (Hl a); [done | left]. }
  apply IH. intros b Hb. apply Hl. by right.
Qed.

Lemma fold_loop_body_le m l : ∀ st,
  (addons_total_low st <= addons_total_high st)%Q →
  (∀ a, a ∈ l → ((addon_contribution m a).1 <= (addon_contribution m a).2)%Q) →
  (addons_total_low (fold_left (loop_body m) l st)
   <= addons_total_high (fold_left (loop_body m) l st))%Q.
Proof.
  induction l as [| a l IH]; intros st Hst Hl; simpl; [done |].
  apply IH.
  - rewrite loop_body_total_low, loop_body_total_high.
    apply Qplus_le_compat; [exact Hst | apply Hl; left].
  - intros b Hb. apply Hl. by right.
Qed.

Lemma addon_contribution_le m a :
  (AddOn.low a <= AddOn.high a)%Q →
  (∀ q, m !! AddOn.addon_id a = Some q → (1 <= q)%Z) →
  ((addon_contribution m a).1 <= (addon_contribution m a).2)%Q.
Proof.
  intros Hlh Hq. unfold addon_contribution.
  case_bool_decide; [done |].
  destruct (is_per_quantity _); [| done]. simpl.
  apply Qmult_le_compat_r; [exact Hlh |].
  unfold dict_get. destruct (m !! AddOn.addon_id a) as [q |] eqn:Hm.
  - specialize (Hq q eq_refl). unfold Qle. simpl. lia.
  - discriminate.
Qed.

(** ** Base cost *)

(** On exact numbers the base cost of each branch is the larger of
    square footage times that branch's own rate and the project type's
    minimum cost, so neither base cost is below the minimum. *)
Theorem base_cost_floor c k p f x sqft sel m :
  let r := estimate c k p f x sqft sel m in
  (base_cost_low r ==
     Qmax (inject_Z sqft * ProjectType.base_cost_per_sqft_low p) (ProjectType.min_project_cost p))%Q
  ∧ (base_cost_high r ==
     Qmax (inject_Z sqft * ProjectType.base_cost_per_sqft_high p) (ProjectType.min_project_cost p))%Q
  ∧ (ProjectType.min_project_cost p <= base_cost_low r)%Q
  ∧ (ProjectType.min_project_cost p <= base_cost_high r)%Q.
Proof.
  simpl. repeat split.
  - apply py_max_Qmax.
  - apply py_max_Qmax.
  - apply py_max_ge_r.
  - apply py_max_ge_r.
Qed.

(** ** Totals and breakdown *)

(** C10.  After the loop the two totals are the sums of the [low] and
    of the [high] fields of [addon_details], and [addon_details] has one
    entry per selected add-on, in selection order, under that add-on's
    name. *)
Theorem addon_totals_match_details c k p f x sqft sel m :
  let st := addons (estimate c k p f x sqft sel m) in
  addons_total_low st = py_sum (detail_low <$> addon_details st)
  ∧ addons_total_high st = py_sum (detail_high <$> addon_details st)
  ∧ addon_details st = detail_of m <$> sel
  ∧ length (addon_details st) = length sel
  ∧ detail_name <$> addon_details st = AddOn.name <$> sel.
Proof.
  simpl. unfold addon_loop, py_sum.
  destruct (fold_loop_body m sel loop_init) as (Hd & Hlo & Hhi). simpl in *.
  rewrite Hd, Hlo, Hhi. repeat split.
  - by rewrite length_fmap.
  - rewrite <- list_fmap_compose. done.
Qed.

(** ** Low never exceeds high *)

(** On exact numbers: with square footage and every entered quantity
    at least 1, low rates and prices no larger than their high
    counterparts, positive multipliers and non-negative percentages,
    the low final total is at most the high one.  (The minimum project
    cost and the project type of the add-ons play no part in the
    inequality.) *)
Theorem final_total_low_le_high c k p f x sqft sel m :
  (1 <= sqft)%Z →
  (∀ id q, m !! id = Some q → (1 <= q)%Z) →
  (ProjectType.base_cost_per_sqft_low p <= ProjectType.base_cost_per_sqft_high p)%Q →
  (∀ a, a ∈ sel → (AddOn.low a <= AddOn.high a)%Q) →
  (0 < FinishLevel.multiplier f)%Q →
  (0 < Complexity.multiplier x)%Q →
  (0 <= c)%Q →
  (0 <= k)%Q →
  (final_total_low (estimate c k p f x sqft sel m)
   <= final_total_high (estimate c k p f x sqft sel m))%Q.
Proof.
  intros Hsqft Hqty Hrate Hsel Hf Hx Hc Hk. simpl.
  apply add_percent_le; [| exact Hk].
  apply add_percent_le; [| exact Hc].
  apply Qplus_le_compat.
  - apply Qmult_le_compat_r; [| apply Qlt_le_weak, Hx].
    apply Qmult_le_compat_r; [| apply Qlt_le_weak, Hf].
    apply py_max_mono_l.
    rewrite !(Qmult_comm (inject_Z sqft)).
    apply Qmult_le_compat_r; [exact Hrate |].
    unfold Qle. simpl. lia.
  - unfold addon_loop. apply fold_loop_body_le; [apply Qle_refl |].
    intros a Ha. apply addon_contribution_le; [by apply Hsel | apply Hqty].
Qed.

(** ** No add-ons *)


(** ** Pricing types *)

Lemma per_quantity_not_flat pt : is_per_quantity pt = true → pt ≠ "flat".
Proof.
  unfold is_per_quantity. intros H ->. by vm_compute in H.
Qed.

Lemma addon_contribution_flat m a :
  AddOn.pricing_type a = "flat" →
  addon_contribution m a = (AddOn.low a, AddOn.high a).
Proof. intros Hpt. unfold addon_contribution. by rewrite bool_decide_eq_true_2. Qed.

Lemma addon_contribution_per_quantity m a :
  is_per_quantity (AddOn.pricing_type a) = true →
  addon_contribution m a =
    ((AddOn.low a * inject_Z (dict_get m (AddOn.addon_id a) 1%Z))%Q,
     (AddOn.high a * inject_Z (dict_get m (AddOn.addon_id a) 1%Z))%Q).
Proof.
  intros Hpt. unfold addon_contribution.
  rewrite bool_decide_eq_false_2 by by apply per_quantity_not_flat.
  by rewrite Hpt.
Qed.

(** An add-on with another id does not see the entry written for [id]. *)
Lemma addon_contribution_insert_ne m id q b :
  AddOn.addon_id b ≠ id →
  addon_contribution (<[id := q]> m) b = addon_contribution m b.
Proof.
  intros Hne. unfold addon_contribution, dict_get.
  by rewrite lookup_insert_ne.
Qed.

(** C6.  An add-on whose pricing type is none of [flat], [per_sqft]
    and [per_unit] contributes its [low] and [high] unchanged, whatever
    the quantity mapping holds: exactly what the same add-on would
    contribute with pricing type [flat]. *)
Theorem unrecognized_pricing_type_is_flat m a :
  AddOn.pricing_type a ≠ "flat" →
  AddOn.pricing_type a ≠ "per_sqft" →
  AddOn.pricing_type a ≠ "per_unit" →
  addon_contribution m a = (AddOn.low a, AddOn.high a)
  ∧ addon_contribution m a =
      addon_contribution m
        (AddOn.mk (AddOn.addon_id a) (AddOn.project_type_id a) (AddOn.name a)
                  (AddOn.notes a) "flat" (AddOn.low a) (AddOn.high a)).
Proof.
  intros Hflat Hsqft Hunit.
  assert (addon_contribution m a = (AddOn.low a, AddOn.high a)) as Hc.
  { unfold addon_contribution, is_per_quantity.
    by rewrite !bool_decide_eq_false_2. }
  split; [exact Hc |].
  rewrite Hc. symmetry. by rewrite addon_contribution_flat.
Qed.

(** C7.  For a [per_sqft] or [per_unit] add-on and a positive quantity
    [q], the contribution at quantity [q] is [q] times the contribution
    at quantity 1, in both branches; and writing that quantity leaves
    the contribution of every add-on with another id as it was. *)
Theorem per_quantity_contribution_linear m a q :
  AddOn.pricing_type a = "per_sqft" ∨ AddOn.pricing_type a = "per_unit" →
  (0 < q)%Z →
  let at_q := addon_contribution (<[AddOn.addon_id a := q]> m) a in
  let at_1 := addon_contribution (<[AddOn.addon_id a := 1%Z]> m) a in
  (at_q.1 == at_1.1 * inject_Z q)%Q
  ∧ (at_q.2 == at_1.2 * inject_Z q)%Q
  ∧ ∀ b, AddOn.addon_id b ≠ AddOn.addon_id a →
         addon_contribution (<[AddOn.addon_id a := q]> m) b = addon_contribution m b.
Proof.
  intros Hpt Hq.
  assert (is_per_quantity (AddOn.pricing_type a) = true) as Hper.
  { unfold is_per_quantity. destruct Hpt as [-> | ->]; done. }
  simpl. rewrite !addon_contribution_per_quantity by done.
  unfold dict_get. rewrite !lookup_insert_eq. simpl.
  rewrite !Qmult_one_r. repeat split; try reflexivity.
  intros b Hb. by apply addon_contribution_insert_ne.
Qed.

Lemma NoDup_addon_id_inj (l : list AddOn.t) a b :
  NoDup (AddOn.addon_id <$> l) → a ∈ l → b ∈ l →
  AddOn.addon_id a = AddOn.addon_id b → a = b.
Proof.
  induction l as [| x l IH]; intros Hnd Ha Hb Hid; [by apply elem_of_nil in Ha |].
  rewrite fmap_cons in Hnd. apply NoDup_cons in Hnd as [Hx Hnd].
  apply elem_of_cons in Ha as [-> | Ha]; apply elem_of_cons in Hb as [-> | Hb].
  - done.
  - exfalso. apply Hx. rewrite Hid. by apply list_elem_of_fmap_2.
  - exfalso. apply Hx. rewrite <- Hid. by apply list_elem_of_fmap_2.
  - by apply IH.
Qed.

(** C8.  A [flat] add-on contributes its [low] and [high] whatever the
    quantity mapping says about it; with add-on ids identifying the
    selected add-ons, two runs that differ only in the quantity stored
    for a selected [flat] add-on give the same contribution and the
    same estimate. *)
Theorem flat_ignores_quantity c k p f x sqft sel m a q :
  AddOn.pricing_type a = "flat" →
  a ∈ sel →
  NoDup (AddOn.addon_id <$> sel) →
  addon_contribution m a = (AddOn.low a, AddOn.high a)
  ∧ addon_contribution (<[AddOn.addon_id a := q]> m) a = addon_contribution m a
  ∧ estimate c k p f x sqft sel (<[AddOn.addon_id a := q]> m) = estimate c k p f x sqft sel m.
Proof.
  intros Hflat Ha Hnd.
  split; [by apply addon_contribution_flat |].
  split; [by rewrite !addon_contribution_flat |].
  unfold estimate.
  rewrite (addon_loop_ext (<[AddOn.addon_id a := q]> m) m sel); [done |].
  intros b Hb. destruct (decide (AddOn.addon_id b = AddOn.addon_id a)) as [Hid | Hid].
  - assert (b = a) as -> by by eapply NoDup_addon_id_inj.
    by rewrite !addon_contribution_flat.
  - by apply addon_contribution_insert_ne.
Qed.

(** ** The results block *)

(** With the three keys present and both percentages readable the block
    returns the estimate, whatever the selection is. *)
Lemma results_block_ok py_float cfg ct c kt k cur p f x sqft sel m :
  cfg !! "default_contingency_percent" = Some ct → py_float ct = Some c →
  cfg !! "default_contractor_markup_percent" = Some kt → py_float kt = Some k →
  cfg !! "currency" = Some cur →
  results_block py_float cfg p f x sqft sel m
  = inr (mkResults cur (estimate c k p f x sqft sel m)).
Proof.
  intros Hct Hc Hkt Hk Hcur. unfold results_block, dict_getitem, float.
  rewrite Hct. simpl. rewrite Hc. simpl.
  rewrite Hkt. simpl. rewrite Hk. simpl.
  by rewrite Hcur.
Qed.

(** A required key that is missing makes the block raise. *)
Lemma results_block_missing_key py_float cfg p f x sqft sel m key :
  key ∈ ["default_contingency_percent"; "default_contractor_markup_percent"; "currency"] →
  cfg !! key = None →
  ∃ e, results_block py_float cfg p f x sqft sel m = inl e.
Proof.
  intros Hkey Hnone. unfold results_block, dict_getitem, float.
  destruct (cfg !! "default_contingency_percent") as [ct |] eqn:Hct; simpl; [| by eexists].
  destruct (py_float ct) as [c |]; simpl; [| by eexists].
  destruct (cfg !! "default_contractor_markup_percent") as [kt |] eqn:Hkt; simpl; [| by eexists].
  destruct (py_float kt) as [k |]; simpl; [| by eexists].
  destruct (cfg !! "currency") as [cur |] eqn:Hcur; simpl; [| by eexists].
  exfalso. set_unfold in Hkey. destruct Hkey as [-> | [-> | [-> | []]]]; congruence.
Qed.

(** C9.  A selected [per_sqft] or [per_unit] add-on whose id has no
    entry in the quantity mapping is priced at quantity 1: it
    contributes its [low] and [high], and the block, given a readable
    configuration, returns a result whose breakdown lists it at those
    amounts. *)
Theorem missing_quantity_defaults_to_one py_float cfg ct c kt k cur p f x sqft sel m a :
  cfg !! "default_contingency_percent" = Some ct → py_float ct = Some c →
  cfg !! "default_contractor_markup_percent" = Some kt → py_float kt = Some k →
  cfg !! "currency" = Some cur →
  a ∈ sel →
  AddOn.pricing_type a = "per_sqft" ∨ AddOn.pricing_type a = "per_unit" →
  m !! AddOn.addon_id a = None →
  addon_contribution m a = (AddOn.low a, AddOn.high a)
  ∧ ∃ r, results_block py_float cfg p f x sqft sel m = inr r
         ∧ mkDetail (AddOn.name a) (AddOn.low a) (AddOn.high a)
             ∈ addon_details (addons (amounts r)).
Proof.
  intros Hct Hc Hkt Hk Hcur Ha Hpt Hm.
  assert (addon_contribution m a = (AddOn.low a, AddOn.high a)) as Hca.
  { rewrite addon_contribution_per_quantity.
    - unfold dict_get. rewrite Hm. by rewrite !Qmult_one_r.
    - unfold is_per_quantity. destruct Hpt as [-> | ->]; done. }
  split; [exact Hca |].
  eexists. split; [by eapply results_block_ok |].
  simpl. rewrite addon_loop_details.
  apply list_elem_of_fmap. exists a. split; [| exact Ha].
  unfold detail_of. by rewrite Hca.
Qed.

(** ** The form *)

Lemma number_input_ge min_value value entry :
  (min_value <= value)%Z →
  (min_value <= number_input min_value value entry)%Z.
Proof.
  intros Hvalue. unfold number_input. destruct entry as [v |]; [| done].
  by destruct (Z.leb_spec min_value v).
Qed.

Lemma iloc0_elem {Row} (rows : list Row) r : iloc0 rows = inr r → r ∈ rows.
Proof. destruct rows; simpl; [done |]. intros [= <-]. left. Qed.

Section SelectRow.
Context {Row : Type} (label_of id_of : Row → string).

(** The id a select box yields is the id of the row fetched for it,
    and that row is one of the table's. *)
Lemma select_row_elem df index pick sid info :
  select_row label_of id_of df index pick = inr (sid, info) →
  info ∈ df ∧ id_of info = sid.
Proof.
  unfold select_row.
  destruct (selectbox _ _ _) as [e | selected_label]; simpl; [done |].
  destruct (options_getitem _ _) as [e | selected_id]; simpl; [done |].
  destruct (iloc0 _) as [e | r] eqn:Hr; simpl; [done |].
  intros [= <- <-]. apply iloc0_elem in Hr.
  by apply list_elem_of_filter in Hr as [Hid Hin].
Qed.

End SelectRow.

Lemma relevant_addons_elem df pid a :
  a ∈ relevant_addons df pid ↔ AddOn.project_type_id a = pid ∧ a ∈ df.
Proof.
  unfold relevant_addons.
  apply (list_elem_of_filter (λ b, AddOn.project_type_id b = pid)).
Qed.

(** The add-on section selects only among the add-ons it shows, and
    every quantity it stores went through a number input with minimum 1. *)
Lemma addon_form_invariant w l : ∀ st,
  let st' := foldl (addon_form_body w) st l in
  (∀ a, a ∈ st'.1 → a ∈ st.1 ∨ a ∈ l)
  ∧ (∀ id q, st'.2 !! id = Some q → st.2 !! id = Some q ∨ (1 <= q)%Z).
Proof.
  induction l as [| b l IH]; intros st; simpl; [by split; intros; left |].
  destruct (IH (addon_form_body w st b)) as [Hsel Hqty]. simpl in *. split.
  - intros a Ha. destruct (Hsel a Ha) as [Hst | Hl]; [| right; by right].
    destruct (is_checked w (AddOn.addon_id b)); [| by left].
    apply elem_of_app in Hst as [Hst | Hb]; [by left |].
    apply list_elem_of_singleton in Hb as ->. right. left.
  - intros id q Hq. destruct (Hqty id q Hq) as [Hst | Hle]; [| by right].
    destruct (is_checked w (AddOn.addon_id b) && is_per_quantity (AddOn.pricing_type b));
      [| by left].
    destruct (decide (AddOn.addon_id b = id)) as [<- | Hne].
    + rewrite lookup_insert_eq in Hst. injection Hst as <-.
      right. apply number_input_ge. by case_bool_decide.
    + rewrite lookup_insert_ne in Hst by done. by left.
Qed.

(** C2, as the script has it.  The results block checks nothing about
    the selection: once the configuration is readable it returns the
    estimate for any square footage, add-ons and quantities.  What keeps
    invalid selections out is the form: the square footage and every
    stored quantity are at least 1, each selected id is the id of the
    row fetched for it from its own table, and every selected add-on is
    a row of the add-on table with the selected project type. *)
Theorem form_guards_selection py_float data w s ct c kt k cur :
  form data w = inr s →
  config data !! "default_contingency_percent" = Some ct → py_float ct = Some c →
  config data !! "default_contractor_markup_percent" = Some kt → py_float kt = Some k →
  config data !! "currency" = Some cur →
  (1 <= square_footage s)%Z
  ∧ (project_info s ∈ project_types_df data
     ∧ ProjectType.project_type_id (project_info s) = selected_project_id s)
  ∧ (finish_info s ∈ finish_levels_df data
     ∧ FinishLevel.finish_level_id (finish_info s) = selected_finish_id s)
  ∧ (complexity_info s ∈ complexity_df data
     ∧ Complexity.complexity_id (complexity_info s) = selected_complexity_id s)
  ∧ (∀ a, a ∈ selected_addons s →
          a ∈ add_ons_df data ∧ AddOn.project_type_id a = selected_project_id s)
  ∧ (∀ id q, addon_sqft_inputs s !! id = Some q → (1 <= q)%Z)
  ∧ (∀ p f x sqft sel m,
       results_block py_float (config data) p f x sqft sel m
       = inr (mkResults cur (estimate c k p f x sqft sel m))).
Proof.
  intros Hform Hct Hc Hkt Hk Hcur. unfold form in Hform.
  destruct (select_row ProjectType.name _ _ _ _) as [e | [pid pinfo]] eqn:Hp; simpl in Hform; [done |].
  destruct (select_row FinishLevel.label _ _ _ _) as [e | [fid finfo]] eqn:Hf; simpl in Hform; [done |].
  destruct (select_row Complexity.label _ _ _ _) as [e | [xid xinfo]] eqn:Hx; simpl in Hform; [done |].
  destruct (widget_keys _) as [e | keys_ok]; simpl in Hform; [done |].
  injection Hform as <-. simpl.
  apply select_row_elem in Hp, Hf, Hx.
  destruct (addon_form_invariant (addon_widgets w)
              (relevant_addons (add_ons_df data) pid) ([], ∅)) as [Hsel Hqty].
  simpl in Hsel, Hqty.
  split; [by apply number_input_ge |].
  do 3 (split; [done |]).
  split; [| split].
  - intros a Ha. destruct (Hsel a Ha) as [Hnil | Hrel]; [by apply elem_of_nil in Hnil |].
    apply relevant_addons_elem in Hrel as [Hpid Hin]. done.
  - intros id q Hq. destruct (Hqty id q Hq) as [Hempty | Hle]; [| done].
    by rewrite lookup_empty in Hempty.
  - intros. by apply results_block_ok with ct kt.
Qed.

(** ** Loading *)

(** C5, as the script has it.  [load_data] fails exactly when one of
    the five reads raises or the configuration table lacks its [Key] or
    [Value] column, and the error it shows is that exception.  When
    every read succeeds and both columns exist it returns the four
    tables as read together with the key-to-value dictionary, whichever
    keys that dictionary holds.  A required key that is missing is only
    noticed by the results block, which then raises. *)
Theorem load_data_outcome py_float files :
  (raises (load_data files) ↔
     raises (PROJECT_TYPES_csv files) ∨ raises (FINISH_LEVELS_csv files)
     ∨ raises (STRUCTURAL_COMPLEXITY_csv files) ∨ raises (ADD_ONS_csv files)
     ∨ raises (CONFIG_csv files)
     ∨ ∃ cfg, CONFIG_csv files = inr cfg
              ∧ (raises (frame_getitem cfg "Key") ∨ raises (frame_getitem cfg "Value")))
  ∧ (∀ e, load_data files = inl e →
       PROJECT_TYPES_csv files = inl e ∨ FINISH_LEVELS_csv files = inl e
       ∨ STRUCTURAL_COMPLEXITY_csv files = inl e ∨ ADD_ONS_csv files = inl e
       ∨ CONFIG_csv files = inl e
       ∨ ∃ cfg, CONFIG_csv files = inr cfg
                ∧ (frame_getitem cfg "Key" = inl e ∨ frame_getitem cfg "Value" = inl e))
  ∧ (∀ pt fl sc ao cfg keys values,
       PROJECT_TYPES_csv files = inr pt → FINISH_LEVELS_csv files = inr fl →
       STRUCTURAL_COMPLEXITY_csv files = inr sc → ADD_ONS_csv files = inr ao →
       CONFIG_csv files = inr cfg →
       frame_getitem cfg "Key" = inr keys → frame_getitem cfg "Value" = inr values →
       load_data files = inr (mkLoaded pt fl sc ao (dict_zip keys values)))
  ∧ (∀ data key p f x sqft sel m,
       load_data files = inr data →
       key ∈ ["default_contingency_percent"; "default_contractor_markup_percent"; "currency"] →
       config data !! key = None →
       raises (results_block py_float (config data) p f x sqft sel m)).
Proof.
  assert (∀ e, load_data files = inl e →
       PROJECT_TYPES_csv files = inl e ∨ FINISH_LEVELS_csv files = inl e
       ∨ STRUCTURAL_COMPLEXITY_csv files = inl e ∨ ADD_ONS_csv files = inl e
       ∨ CONFIG_csv files = inl e
       ∨ ∃ cfg, CONFIG_csv files = inr cfg
                ∧ (frame_getitem cfg "Key" = inl e ∨ frame_getitem cfg "Value" = inl e))
    as Hcause.
  { intros e. unfold load_data.
    destruct (PROJECT_TYPES_csv files) as [e1 | pt]; simpl; [intros [= ->]; by left |].
    destruct (FINISH_LEVELS_csv files) as [e2 | fl]; simpl; [intros [= ->]; right; by left |].
    destruct (STRUCTURAL_COMPLEXITY_csv files) as [e3 | sc]; simpl;
      [intros [= ->]; do 2 right; by left |].
    destruct (ADD_ONS_csv files) as [e4 | ao]; simpl; [intros [= ->]; do 3 right; by left |].
    destruct (CONFIG_csv files) as [e5 | cfg]; simpl; [intros [= ->]; do 4 right; by left |].
    intros H. do 5 right. exists cfg. split; [done |].
    destruct (frame_getitem cfg "Key") as [e6 | keys]; simpl in H; [left; congruence |].
    destruct (frame_getitem cfg "Value") as [e7 | values]; simpl in H; [right; congruence | done]. }
  split; [| split; [exact Hcause | split]].
  - split.
    + intros [e He]. destruct (Hcause e He) as [H | [H | [H | [H | [H | (cfg & Hcfg & [H | H])]]]]];
        unfold raises; eauto 10.
    + unfold raises, load_data.
      intros [[e H] | [[e H] | [[e H] | [[e H] | [[e H] | (cfg & Hcfg & H)]]]]].
      * rewrite H. by eexists.
      * rewrite H. destruct (PROJECT_TYPES_csv files); by eexists.
      * rewrite H. destruct (PROJECT_TYPES_csv files), (FINISH_LEVELS_csv files); by eexists.
      * rewrite H. destruct (PROJECT_TYPES_csv files), (FINISH_LEVELS_csv files),
          (STRUCTURAL_COMPLEXITY_csv files); by eexists.
      * rewrite H. destruct (PROJECT_TYPES_csv files), (FINISH_LEVELS_csv files),
          (STRUCTURAL_COMPLEXITY_csv files), (ADD_ONS_csv files); by eexists.
      * rewrite Hcfg. destruct (PROJECT_TYPES_csv files), (FINISH_LEVELS_csv files),
          (STRUCTURAL_COMPLEXITY_csv files), (ADD_ONS_csv files); simpl; try by eexists.
        destruct H as [[e H] | [e H]]; rewrite H; simpl; [by eexists |].
        destruct (frame_getitem cfg "Key"); by eexists.
  - intros pt fl sc ao cfg keys values Hpt Hfl Hsc Hao Hcfg Hkeys Hvalues.
    unfold load_data. rewrite Hpt, Hfl, Hsc, Hao, Hcfg. simpl.
    by rewrite Hkeys, Hvalues.
  - intros data key p f x sqft sel m _ Hkey Hnone.
    by eapply results_block_missing_key.
Qed.

(** ** The definitions at work *)

(** The worked example of the specification. *)
Example example_final_totals :
  let r := estimate 10 15 example_project example_finish example_complexity 40 [] ∅ in
  (base_cost_low r == 5000)%Q ∧ (base_cost_high r == 6000)%Q
  ∧ (after_complexity_low r == 6600)%Q ∧ (after_complexity_high r == 7920)%Q
  ∧ (final_total_low r == 8349)%Q ∧ (final_total_high r == 100188 # 10)%Q.
Proof. vm_compute. repeat split. Qed.

Example load_example_files : load_data example_files = inr example_loaded.
Proof. reflexivity. Qed.

Example load_without_add_ons :
  load_data files_without_add_ons = inl (OSError "ADD_ONS.csv").
Proof. reflexivity. Qed.

(** The sample page: kitchen, 40 sq ft, six pot lights and the permit. *)
Example app_example :
  ∃ r, app example_float example_files example_widgets = Rendered (Some r)
       ∧ currency r = "CAD"
       ∧ (final_total_low (amounts r) == 10120)%Q
       ∧ (final_total_high (amounts r) == 134343 # 10)%Q
       ∧ addon_details (addons (amounts r))
         = [mkDetail "Pot lights" (150 * inject_Z 6) (250 * inject_Z 6);
            mkDetail "Permit" 500 1200].
Proof. eexists. split; [reflexivity |]. vm_compute. repeat split. Qed.

(** The results block returns an estimate for a square footage of 0,
    for an add-on of another project type, and for a [per_unit] add-on
    with quantity 0. *)
Lemma results_block_accepts_invalid_selection :
  (∃ r, results_block example_float example_config example_project example_finish
          example_complexity 0 [] ∅ = inr r
        ∧ (final_total_low (amounts r) == 8349)%Q)
  ∧ (AddOn.project_type_id wet_bar ≠ ProjectType.project_type_id example_project
     ∧ ∃ r, results_block example_float example_config example_project example_finish
              example_complexity 40 [wet_bar] ∅ = inr r
            ∧ (final_total_low (amounts r) == 13409)%Q)
  ∧ (∃ r, results_block example_float example_config example_project example_finish
            example_complexity 40 [pot_lights] {["A1" := 0%Z]} = inr r
          ∧ (final_total_low (amounts r) == 8349)%Q).
Proof.
  split; [| split; [split |]].
  - eexists. split; [reflexivity | vm_compute; reflexivity].
  - discriminate.
  - eexists. split; [reflexivity | vm_compute; reflexivity].
  - eexists. split; [reflexivity | vm_compute; reflexivity].
Qed.

(** A configuration file without its [currency] row loads; the missing
    key shows up as a [KeyError] in the results block. *)
Lemma load_data_accepts_missing_currency :
  ∃ data, load_data files_without_currency = inr data
          ∧ config data !! "currency" = None
          ∧ results_block example_float (config data) example_project example_finish
              example_complexity 40 [] ∅ = inl (KeyError "currency").
Proof. eexists. split; [reflexivity |]. split; reflexivity. Qed.

(** ** The theorems at sample inputs *)

Lemma final_total_low_le_high_witness :
  (1 <= 40)%Z
  ∧ (final_total_low (estimate 10 15 example_project example_finish example_complexity 40
                        [pot_lights; permit] {["A1" := 6%Z]})
     <= final_total_high (estimate 10 15 example_project example_finish example_complexity 40
                            [pot_lights; permit] {["A1" := 6%Z]}))%Q.
Proof.
  split; [lia |].
  apply final_total_low_le_high.
  - lia.
  - intros id q Hq. apply lookup_singleton_Some in Hq as [_ <-]. lia.
  - vm_compute. discriminate.
  - intros a Ha. apply elem_of_cons in Ha as [-> | Ha].
    + vm_compute. discriminate.
    + apply list_elem_of_singleton in Ha as ->. vm_compute. discriminate.
  - reflexivity.
  - reflexivity.
  - vm_compute. discriminate.
  - vm_compute. discriminate.
Defined.

Lemma unrecognized_pricing_type_is_flat_witness :
  addon_contribution {["A5" := 7%Z]} millwork = (1000%Q, 3000%Q).
Proof.
  apply (unrecognized_pricing_type_is_flat {["A5" := 7%Z]} millwork); discriminate.
Defined.

Lemma per_quantity_contribution_linear_witness :
  ((addon_contribution (<["A1" := 6%Z]> ∅) pot_lights).1
   == (addon_contribution (<["A1" := 1%Z]> ∅) pot_lights).1 * inject_Z 6)%Q.
Proof.
  apply (per_quantity_contribution_linear ∅ pot_lights 6).
  - right. reflexivity.
  - lia.
Defined.

Lemma flat_ignores_quantity_witness :
  estimate 10 15 example_project example_finish example_complexity 40
           [pot_lights; permit] (<["A2" := 99%Z]> {["A1" := 6%Z]})
  = estimate 10 15 example_project example_finish example_complexity 40
             [pot_lights; permit] {["A1" := 6%Z]}.
Proof.
  apply (flat_ignores_quantity 10 15 example_project example_finish example_complexity 40
           [pot_lights; permit] {["A1" := 6%Z]} permit 99).
  - reflexivity.
  - right. left.
  - apply (bool_decide_unpack _). vm_compute. exact I.
Defined.

Lemma missing_quantity_defaults_to_one_witness :
  addon_contribution ∅ heated_floor = (12%Q, 20%Q).
Proof.
  apply (missing_quantity_defaults_to_one example_float example_config
           "10" 10 "15" 15 "CAD" example_project example_finish example_complexity 40
           [heated_floor] ∅ heated_floor).
  - reflexivity.
  - reflexivity.
  - reflexivity.
  - reflexivity.
  - reflexivity.
  - left.
  - left. reflexivity.
  - reflexivity.
Defined.

Lemma form_guards_selection_witness :
  ∃ s, form example_loaded example_widgets = inr s
       ∧ (1 <= square_footage s)%Z
       ∧ (∀ a, a ∈ selected_addons s →
               a ∈ add_ons_df example_loaded
               ∧ AddOn.project_type_id a = selected_project_id s)
       ∧ (∀ id q, addon_sqft_inputs s !! id = Some q → (1 <= q)%Z).
Proof.
  destruct (form example_loaded example_widgets) as [e | s] eqn:Hform.
  - vm_compute in Hform. discriminate.
  - exists s. split; [reflexivity |].
    destruct (form_guards_selection example_float example_loaded example_widgets s
                "10" 10 "15" 15 "CAD" Hform)
      as (Hsqft & _ & _ & _ & Hsel & Hqty & _); try reflexivity.
    split; [exact Hsqft |]. split; [exact Hsel | exact Hqty].
Defined.

Lemma load_data_outcome_witness :
  load_data example_files = inr example_loaded
  ∧ raises (load_data files_without_add_ons).
Proof.
  destruct (load_data_outcome example_float example_files) as (_ & _ & Hok & _).
  destruct (load_data_outcome example_float files_without_add_ons) as (Hfail & _).
  split.
  - apply (Hok _ _ _ _ example_config_frame); reflexivity.
  - apply Hfail. do 3 right. left. by eexists.
Defined.

(** * Further properties of the script *)

(** ** Select boxes and row lookup (lines 146-155, 172-182, 187-196) *)

Lemma options_getitem_set d k v key :
  options_getitem (options_set d k v) (Some key)
  = if decide (k = key) then inr v else options_getitem d (Some key).
Proof.
  induction d as [| [k0 v0] d IH]; simpl.
  - by repeat case_decide.
  - destruct (decide (k0 = k)) as [-> | Hk0]; simpl.
    + by repeat case_decide.
    + rewrite IH. repeat case_decide; congruence.
Qed.

Lemma options_keys_set d k v :
  options_keys (options_set d k v)
  = if decide (k ∈ options_keys d) then options_keys d else (options_keys d ++ [k])%list.
Proof.
  unfold options_keys. induction d as [| [k0 v0] d IH]; csimpl.
  - done.
  - destruct (decide (k0 = k)) as [-> | Hk0]; csimpl.
    + rewrite decide_True; [done | left].
    + rewrite IH. destruct (decide (k ∈ d.*1)) as [Hin | Hnin].
      * rewrite decide_True; [done | by right].
      * rewrite decide_False; [done |].
        intros Hc. apply elem_of_cons in Hc as [-> | Hc]; done.
Qed.

Lemma options_fold_keys l : ∀ d,
  NoDup (options_keys d) →
  let d' := foldl (λ d kv, options_set d kv.1 kv.2) d l in
  NoDup (options_keys d') ∧ ∀ k, k ∈ options_keys d' ↔ k ∈ options_keys d ∨ k ∈ l.*1.
Proof.
  induction l as [| [k0 v0] l IH]; intros d Hd; simpl.
  - split; [done |]. intros k. split; [by left | intros [H | H]; [done | by apply elem_of_nil in H]].
  - assert (NoDup (options_keys (options_set d k0 v0))) as Hnd.
    { rewrite options_keys_set. case_decide as Hin; [done |].
      apply NoDup_app. split; [done |]. split; [| apply NoDup_singleton].
      intros x Hx Hx'. apply list_elem_of_singleton in Hx' as ->. done. }
    destruct (IH _ Hnd) as [Hnd' Hk]. simpl in *. split; [done |].
    intros k. rewrite Hk, options_keys_set. case_decide as Hin.
    + split; [intros [H | H]; [by left | right; by right] |].
      intros [H | H]; [by left |].
      apply elem_of_cons in H as [-> | H]; [by left | by right].
    + rewrite elem_of_app, list_elem_of_singleton, elem_of_cons. tauto.
Qed.

Lemma options_fold_absent l key : ∀ d,
  key ∉ l.*1 →
  options_getitem (foldl (λ d kv, options_set d kv.1 kv.2) d l) (Some key)
  = options_getitem d (Some key).
Proof.
  induction l as [| [k0 v0] l IH]; intros d Hk; simpl; [done |].
  simpl in Hk. apply not_elem_of_cons in Hk as [Hne Hk].
  rewrite IH by done. rewrite options_getitem_set. by rewrite decide_False.
Qed.

(** X4.  When two rows of a table carry the same label, the select box
    maps that label to the id of the last such row: in
    [dict(zip(labels, ids))] a later pair overwrites an earlier one. *)
Theorem options_last_label_wins labels ids before after key v :
  zip labels ids = (before ++ (key, v) :: after)%list →
  key ∉ after.*1 →
  options_getitem (options_zip labels ids) (Some key) = inr v.
Proof.
  intros Hzip Hafter. unfold options_zip. rewrite Hzip, foldl_app. simpl.
  rewrite options_fold_absent by done.
  rewrite options_getitem_set. by rewrite decide_True.
Qed.

Lemma options_last_label_wins_witness :
  options_getitem (options_zip ["Kitchen"; "Bath"; "Kitchen"] ["PT1"; "PT2"; "PT3"])
                  (Some "Kitchen") = inr "PT3".
Proof.
  apply (options_last_label_wins _ _ [("Kitchen", "PT1"); ("Bath", "PT2")] [] "Kitchen" "PT3").
  - reflexivity.
  - apply not_elem_of_nil.
Defined.

Section SelectRowFacts.
Context {Row : Type} (label_of id_of : Row → string).

Lemma fst_zip_rows (df : list Row) :
  (zip (label_of <$> df) (id_of <$> df)).*1 = label_of <$> df.
Proof. apply fst_zip. by rewrite !length_fmap. Qed.

(** X2.  A select box shows every label of its table, and shows each
    one once, however often the table repeats it. *)
Theorem options_keys_distinct_labels (df : list Row) :
  let keys := options_keys (options_zip (label_of <$> df) (id_of <$> df)) in
  NoDup keys ∧ ∀ label, label ∈ keys ↔ label ∈ label_of <$> df.
Proof.
  simpl. unfold options_zip.
  destruct (options_fold_keys (zip (label_of <$> df) (id_of <$> df)) []) as [Hnd Hk].
  { apply NoDup_nil_2. }
  simpl in *. split; [done |].
  intros label. rewrite Hk, fst_zip_rows. unfold options_keys. simpl.
  split; [intros [H | H]; [by apply elem_of_nil in H | done] | by right].
Qed.

(** X20.  A select box raises Streamlit's out-of-range error exactly
    when it has options and its preselected [index] is not the
    position of one of them; so the finish-level box, created with
    [index=1], fails on a table with a single distinct label. *)
Theorem select_row_index_out_of_range (df : list Row) index pick :
  let keys := options_keys (options_zip (label_of <$> df) (id_of <$> df)) in
  (select_row label_of id_of df index pick = inl StreamlitValueOutOfRangeError
   ↔ (0 < length keys ≤ index)%nat)
  ∧ (length keys = 1%nat →
     select_row label_of id_of df 1 pick = inl StreamlitValueOutOfRangeError).
Proof.
  simpl. unfold select_row, selectbox.
  set (options := options_zip (label_of <$> df) (id_of <$> df)).
  assert (∀ label, options_getitem options label ≠ inl StreamlitValueOutOfRangeError)
    as Hget.
  { intros label. generalize options. intros d.
    induction d as [| [k0 v0] d IH]; destruct label as [key |]; simpl; try done.
    by case_decide. }
  split.
  - destruct (options_keys options) as [| key keys] eqn:Hkeys; simpl.
    + split; [| lia]. intros H. exfalso.
      destruct (options_getitem options None) as [e | selected_id] eqn:Hg; simpl in H.
      * injection H as ->. by apply (Hget None).
      * destruct (filter _ df); simpl in H; discriminate.
    + case_decide as Hindex; simpl.
      * split; [| lia]. intros H. exfalso.
        destruct (options_getitem options ((key :: keys) !! pick))
          as [e | selected_id] eqn:Hg; simpl in H.
        -- injection H as ->. by eapply Hget.
        -- destruct (filter _ df); simpl in H; discriminate.
      * split; [intros _; lia | done].
  - intros Hone. destruct (options_keys options) as [| key [| key' keys]]; simpl in *; try done.
Qed.
End SelectRowFacts.

Lemma select_row_index_out_of_range_witness :
  select_row FinishLevel.label FinishLevel.finish_level_id [example_finish] 1 0
  = inl StreamlitValueOutOfRangeError.
Proof.
  refine (proj2 (select_row_index_out_of_range FinishLevel.label FinishLevel.finish_level_id
                   [example_finish] 1 0) _).
  reflexivity.
Defined.

(** ** The add-on section (lines 203-234) *)

Lemma addon_form_fold_selected w l : ∀ st,
  (foldl (addon_form_body w) st l).1
  = (st.1 ++ filter (λ a, is_checked w (AddOn.addon_id a) = true) l)%list.
Proof.
  induction l as [| b l IH]; intros st; simpl; [by rewrite app_nil_r |].
  rewrite IH. simpl.
  destruct (is_checked w (AddOn.addon_id b)) eqn:Hb.
  - rewrite filter_cons_True by done. by rewrite <- app_assoc.
  - rewrite filter_cons_False; [done | by rewrite Hb].
Qed.

(** X5.  The selected add-ons are exactly the checked ones among the
    add-ons shown, in the order of the table; hence, with the filter of
    line 203, the checked rows of the add-on table that carry the
    selected project type. *)
Theorem selected_addons_are_checked_rows w df pid :
  (addon_form w (relevant_addons df pid)).1
  = filter (λ a, is_checked w (AddOn.addon_id a) = true)
           (filter (λ a, AddOn.project_type_id a = pid) df)
  ∧ sublist (addon_form w (relevant_addons df pid)).1 df.
Proof.
  unfold addon_form, relevant_addons. rewrite addon_form_fold_selected. simpl.
  split; [done |].
  etrans; apply sublist_filter.
Qed.

(** Which ids end up with a quantity. *)
Lemma addon_form_fold_quantity w l id : ∀ st,
  is_Some ((foldl (addon_form_body w) st l).2 !! id)
  ↔ is_Some (st.2 !! id)
    ∨ ∃ a, a ∈ l ∧ AddOn.addon_id a = id
           ∧ is_checked w id = true ∧ is_per_quantity (AddOn.pricing_type a) = true.
Proof.
  induction l as [| b l IH]; intros st; simpl.
  - split; [by left |]. intros [H | (a & Ha & _)]; [done | by apply elem_of_nil in Ha].
  - rewrite IH. simpl. split.
    + intros [Hst | (a & Ha & Hid & Hck & Hpq)].
      * destruct (is_checked w (AddOn.addon_id b)) eqn:Hb;
          destruct (is_per_quantity (AddOn.pricing_type b)) eqn:Hpb; simpl in Hst;
          try by left.
        destruct (decide (AddOn.addon_id b = id)) as [<- | Hne].
        -- right. exists b. split; [left | done].
        -- rewrite lookup_insert_ne in Hst by done. by left.
      * right. exists a. split; [by right | done].
    + intros [Hst | (a & Ha & Hid & Hck & Hpq)].
      * left. destruct (is_checked w (AddOn.addon_id b) && is_per_quantity (AddOn.pricing_type b));
          [| done].
        destruct (decide (AddOn.addon_id b = id)) as [<- | Hne].
        -- rewrite lookup_insert_eq. by eexists.
        -- by rewrite lookup_insert_ne.
      * apply elem_of_cons in Ha as [-> | Ha].
        -- left. rewrite Hid, Hck, Hpq. simpl. rewrite <- Hid, lookup_insert_eq. by eexists.
        -- right. exists a. done.
Qed.

(** X6.  The form stores a quantity, never below 1, for every selected
    [per_sqft] or [per_unit] add-on, so on what the form hands over the
    default of [addon_sqft_inputs.get(id, 1)] is never used; and it
    stores a quantity under no other id than that of a checked
    [per_sqft] or [per_unit] add-on. *)
Theorem form_stores_quantity_for_per_quantity_addons w l :
  (∀ a, a ∈ (addon_form w l).1 →
        is_per_quantity (AddOn.pricing_type a) = true →
        ∃ q, (addon_form w l).2 !! AddOn.addon_id a = Some q ∧ (1 <= q)%Z)
  ∧ (∀ id q, (addon_form w l).2 !! id = Some q →
        ∃ a, a ∈ (addon_form w l).1 ∧ AddOn.addon_id a = id
             ∧ is_per_quantity (AddOn.pricing_type a) = true).
Proof.
  unfold addon_form. split.
  - intros a Ha Hpq. rewrite addon_form_fold_selected in Ha. simpl in Ha.
    apply list_elem_of_filter in Ha as [Hck Ha].
    destruct (proj2 (addon_form_fold_quantity w l (AddOn.addon_id a) ([], ∅))) as [q Hq].
    { right. exists a. done. }
    exists q. split; [done |].
    destruct (addon_form_invariant w l ([], ∅)) as [_ Hqty].
    destruct (Hqty _ _ Hq) as [Hempty | Hle]; [| done].
    simpl in Hempty. by rewrite lookup_empty in Hempty.
  - intros id q Hq.
    destruct (proj1 (addon_form_fold_quantity w l id ([], ∅))) as [Hempty | (a & Ha & Hid & Hck & Hpq)].
    { by eexists. }
    { simpl in Hempty. rewrite lookup_empty in Hempty. by destruct Hempty. }
    exists a. rewrite addon_form_fold_selected. simpl.
    split; [| done]. apply list_elem_of_filter. split; [by rewrite Hid | done].
Qed.

Lemma addon_form_fold_untouched w l id : ∀ st,
  id ∉ AddOn.addon_id <$> l →
  (foldl (addon_form_body w) st l).2 !! id = st.2 !! id.
Proof.
  induction l as [| b l IH]; intros st Hid; simpl; [done |].
  rewrite fmap_cons in Hid. apply not_elem_of_cons in Hid as [Hne Hid].
  rewrite IH by done. simpl.
  destruct (is_checked w (AddOn.addon_id b) && is_per_quantity (AddOn.pricing_type b));
    [| done].
  by rewrite lookup_insert_ne.
Qed.

Lemma addon_form_fold_value w l a : ∀ st,
  NoDup (AddOn.addon_id <$> l) → a ∈ l →
  is_checked w (AddOn.addon_id a) = true →
  is_per_quantity (AddOn.pricing_type a) = true →
  (foldl (addon_form_body w) st l).2 !! AddOn.addon_id a
  = Some (number_input 1
            (if bool_decide (AddOn.pricing_type a = "per_sqft") then 50 else 1)
            (qty_entry w (AddOn.addon_id a))).
Proof.
  induction l as [| b l IH]; intros st Hnd Ha Hck Hpq; [by apply elem_of_nil in Ha |].
  rewrite fmap_cons in Hnd. apply NoDup_cons in Hnd as [Hb Hnd]. simpl.
  apply elem_of_cons in Ha as [<- | Ha].
  - rewrite addon_form_fold_untouched by done. simpl.
    rewrite Hck, Hpq. simpl. by rewrite lookup_insert_eq.
  - by apply IH.
Qed.

(** X7.  With pairwise distinct add-on ids, the quantity stored for a
    checked [per_sqft] or [per_unit] add-on is what its own number
    input returns: the number entered when that is at least 1, and the
    preset value, 50 for [per_sqft] and 1 for [per_unit], while the
    field is untouched or holds a number below 1. *)
Theorem stored_quantity_is_number_input w l a :
  NoDup (AddOn.addon_id <$> l) → a ∈ l →
  is_checked w (AddOn.addon_id a) = true →
  AddOn.pricing_type a = "per_sqft" ∨ AddOn.pricing_type a = "per_unit" →
  let preset := if bool_decide (AddOn.pricing_type a = "per_sqft") then 50%Z else 1%Z in
  (∀ v, qty_entry w (AddOn.addon_id a) = Some v → (1 <= v)%Z →
        (addon_form w l).2 !! AddOn.addon_id a = Some v)
  ∧ (∀ v, qty_entry w (AddOn.addon_id a) = Some v → (v < 1)%Z →
        (addon_form w l).2 !! AddOn.addon_id a = Some preset)
  ∧ (qty_entry w (AddOn.addon_id a) = None →
        (addon_form w l).2 !! AddOn.addon_id a = Some preset).
Proof.
  intros Hnd Ha Hck Hpt.
  assert (is_per_quantity (AddOn.pricing_type a) = true) as Hpq.
  { unfold is_per_quantity. destruct Hpt as [-> | ->]; done. }
  simpl. unfold addon_form. rewrite (addon_form_fold_value w l a) by done.
  unfold number_input. split; [| split].
  - intros v -> Hv. by destruct (Z.leb_spec 1 v); [| lia].
  - intros v -> Hv. by destruct (Z.leb_spec 1 v); [lia |].
  - by intros ->.
Qed.

Lemma stored_quantity_is_number_input_witness :
  (addon_form (mkAddonWidgets (λ _, true) (λ _, None)) [pot_lights; permit; heated_floor]).2
    !! "A3" = Some 50%Z.
Proof.
  refine (proj2 (proj2 (stored_quantity_is_number_input
            (mkAddonWidgets (λ _, true) (λ _, None))
            [pot_lights; permit; heated_floor] heated_floor _ _ _ _)) _).
  - apply (bool_decide_unpack _). vm_compute. exact I.
  - do 2 right. left.
  - reflexivity.
  - left. reflexivity.
  - reflexivity.
Defined.

Lemma form_stores_quantity_witness :
  ∃ q, (addon_form (addon_widgets example_widgets) [pot_lights; permit; heated_floor]).2
         !! "A1" = Some q ∧ (1 <= q)%Z.
Proof.
  apply (proj1 (form_stores_quantity_for_per_quantity_addons
                  (addon_widgets example_widgets) [pot_lights; permit; heated_floor])
               pot_lights).
  - left.
  - reflexivity.
Defined.

(** ** The configuration dictionary (line 115) *)

Lemma dict_fold_absent (l : list (string * string)) key : ∀ d : gmap string string,
  key ∉ l.*1 →
  foldl (λ d kv, <[kv.1 := kv.2]> d) d l !! key = d !! key.
Proof.
  induction l as [| [k0 v0] l IH]; intros d Hk; simpl; [done |].
  simpl in Hk. apply not_elem_of_cons in Hk as [Hne Hk].
  rewrite IH by done. simpl. by rewrite lookup_insert_ne.
Qed.

(** X8.  When [CONFIG.csv] repeats a key, the value of its last row is
    the one the dictionary holds; a key that occurs in no row is absent
    from the dictionary. *)
Theorem dict_zip_last_row_wins keys values key :
  (∀ before after v,
     zip keys values = (before ++ (key, v) :: after)%list →
     key ∉ after.*1 →
     dict_zip keys values !! key = Some v)
  ∧ (key ∉ (zip keys values).*1 → dict_zip keys values !! key = None).
Proof.
  unfold dict_zip. split.
  - intros before after v Hzip Hafter. rewrite Hzip, foldl_app. simpl.
    rewrite dict_fold_absent by done. by rewrite lookup_insert_eq.
  - intros Habsent. rewrite dict_fold_absent by done. apply lookup_empty.
Qed.

Lemma dict_zip_last_row_wins_witness :
  dict_zip ["currency"; "default_contingency_percent"; "currency"] ["USD"; "10"; "CAD"]
    !! "currency" = Some "CAD".
Proof.
  apply (proj1 (dict_zip_last_row_wins
                  ["currency"; "default_contingency_percent"; "currency"]
                  ["USD"; "10"; "CAD"] "currency")
               [("currency", "USD"); ("default_contingency_percent", "10")] []).
  - reflexivity.
  - apply not_elem_of_nil.
Defined.

(** ** Failures of the results block (lines 246-249) *)

(** What the block can raise, and why. *)
Lemma results_block_inl py_float cfg p f x sqft sel m e :
  results_block py_float cfg p f x sqft sel m = inl e →
  (∃ key, key ∈ ["default_contingency_percent"; "default_contractor_markup_percent"; "currency"]
          ∧ cfg !! key = None ∧ e = KeyError key)
  ∨ (∃ key text, key ∈ ["default_contingency_percent"; "default_contractor_markup_percent"]
          ∧ cfg !! key = Some text ∧ py_float text = None ∧ e = ValueError text).
Proof.
  unfold results_block, dict_getitem, float.
  destruct (cfg !! "default_contingency_percent") as [ct |] eqn:Hct; simpl.
  2: { intros [= <-]. left. eexists. split; [| done]. set_solver. }
  destruct (py_float ct) as [c |] eqn:Hc; simpl.
  2: { intros [= <-]. right. exists "default_contingency_percent", ct.
       split; [set_solver | done]. }
  destruct (cfg !! "default_contractor_markup_percent") as [kt |] eqn:Hkt; simpl.
  2: { intros [= <-]. left. eexists. split; [| done]. set_solver. }
  destruct (py_float kt) as [k |] eqn:Hk; simpl.
  2: { intros [= <-]. right. exists "default_contractor_markup_percent", kt.
       split; [set_solver | done]. }
  destruct (cfg !! "currency") as [cur |] eqn:Hcur; simpl; [done |].
  intros [= <-]. left. eexists. split; [| done]. set_solver.
Qed.

(** X9.  The results block raises only for the configuration: a
    [KeyError] for a required key that is missing, or a [ValueError]
    for a percentage whose text [float] rejects.  It raises exactly
    when the three keys are not all present with both percentages
    readable; the selection never makes it raise. *)
Theorem results_block_raises_only_for_config py_float cfg p f x sqft sel m :
  (∀ e, results_block py_float cfg p f x sqft sel m = inl e →
     (∃ key, key ∈ ["default_contingency_percent"; "default_contractor_markup_percent"; "currency"]
             ∧ cfg !! key = None ∧ e = KeyError key)
     ∨ (∃ key text, key ∈ ["default_contingency_percent"; "default_contractor_markup_percent"]
             ∧ cfg !! key = Some text ∧ py_float text = None ∧ e = ValueError text))
  ∧ (raises (results_block py_float cfg p f x sqft sel m) ↔
     ¬ ∃ ct c kt k cur,
         cfg !! "default_contingency_percent" = Some ct ∧ py_float ct = Some c
         ∧ cfg !! "default_contractor_markup_percent" = Some kt ∧ py_float kt = Some k
         ∧ cfg !! "currency" = Some cur).
Proof.
  split; [intros e; apply results_block_inl |].
  split.
  - intros [e He] (ct & c & kt & k & cur & Hct & Hc & Hkt & Hk & Hcur).
    rewrite (results_block_ok py_float cfg ct c kt k cur) in He by done. done.
  - intros Hno. unfold raises, results_block, dict_getitem, float.
    destruct (cfg !! "default_contingency_percent") as [ct |] eqn:Hct; simpl; [| by eexists].
    destruct (py_float ct) as [c |] eqn:Hc; simpl; [| by eexists].
    destruct (cfg !! "default_contractor_markup_percent") as [kt |] eqn:Hkt; simpl; [| by eexists].
    destruct (py_float kt) as [k |] eqn:Hk; simpl; [| by eexists].
    destruct (cfg !! "currency") as [cur |] eqn:Hcur; simpl; [| by eexists].
    exfalso. apply Hno. by exists ct, c, kt, k, cur.
Qed.

Lemma results_block_raises_only_for_config_witness :
  ¬ raises (results_block example_float example_config example_project example_finish
              example_complexity 0 [wet_bar] {["A4" := (-2)%Z]}).
Proof.
  intros Hr.
  apply (proj1 (proj2 (results_block_raises_only_for_config example_float example_config
           example_project example_finish example_complexity 0 [wet_bar] {["A4" := (-2)%Z]}))
           Hr).
  by exists "10", 10%Q, "15", 15%Q, "CAD".
Defined.

(** ** Base costs under the minimum (lines 252-269) *)





(** ** From the form to the breakdown (lines 210-294) *)

(** X18.  From the form to the breakdown: with pairwise distinct
    add-on ids, a checked [per_sqft] or [per_unit] add-on for which the
    user entered a quantity of at least 1 appears in the breakdown at
    its low and high price times exactly that quantity. *)
Theorem entered_quantity_is_charged w l a v :
  NoDup (AddOn.addon_id <$> l) → a ∈ l →
  is_checked w (AddOn.addon_id a) = true →
  AddOn.pricing_type a = "per_sqft" ∨ AddOn.pricing_type a = "per_unit" →
  qty_entry w (AddOn.addon_id a) = Some v →
  (1 <= v)%Z →
  mkDetail (AddOn.name a) (AddOn.low a * inject_Z v) (AddOn.high a * inject_Z v)
    ∈ addon_details (addon_loop (addon_form w l).2 (addon_form w l).1).
Proof.
  intros Hnd Ha Hck Hpt Hentry Hv.
  assert (is_per_quantity (AddOn.pricing_type a) = true) as Hpq.
  { unfold is_per_quantity. destruct Hpt as [-> | ->]; done. }
  rewrite addon_loop_details. apply list_elem_of_fmap. exists a. split.
  - unfold detail_of. rewrite addon_contribution_per_quantity by done. simpl.
    unfold dict_get, addon_form. rewrite (addon_form_fold_value w l a) by done.
    unfold number_input. rewrite Hentry.
    by destruct (Z.leb_spec 1 v); [| lia].
  - unfold addon_form. rewrite addon_form_fold_selected. simpl.
    by apply list_elem_of_filter.
Qed.

Lemma entered_quantity_is_charged_witness :
  mkDetail "Pot lights" (150 * inject_Z 6) (250 * inject_Z 6)
    ∈ addon_details
        (addon_loop
           (addon_form (addon_widgets example_widgets) [pot_lights; permit; heated_floor]).2
           (addon_form (addon_widgets example_widgets) [pot_lights; permit; heated_floor]).1).
Proof.
  refine (entered_quantity_is_charged (addon_widgets example_widgets)
            [pot_lights; permit; heated_floor] pot_lights 6 _ _ _ _ _ _).
  - apply (bool_decide_unpack _). vm_compute. exact I.
  - left.
  - reflexivity.
  - right. reflexivity.
  - reflexivity.
  - lia.
Defined.

(** ** Where int64 and binary64 depart from the exact result *)

Lemma int64_wrap_in_range z :
  (- 2 ^ 63 <= z < 2 ^ 63)%Z → int64_wrap z = z.
Proof.
  intros Hz. unfold int64_wrap.
  rewrite Z.mod_small by lia. lia.
Qed.

Lemma py_max_int_max a b : py_max_int a b = Z.max a b.
Proof. unfold py_max_int. destruct (Z.ltb_spec a b); lia. Qed.

(** X19.  On int64 rate and minimum-cost columns neither base cost is
    ever below the minimum project cost, overflow or not, and each is
    the larger of the product and the minimum as long as the product
    of square footage and rate fits int64. *)
Theorem base_cost64_floor c k lo hi mn f x sqft tl th :
  let r := estimate64 c k lo hi mn f x sqft tl th in
  (mn <= base_cost_low64 r)%Z ∧ (mn <= base_cost_high64 r)%Z
  ∧ ((- 2 ^ 63 <= sqft * lo < 2 ^ 63)%Z → base_cost_low64 r = Z.max (sqft * lo) mn)
  ∧ ((- 2 ^ 63 <= sqft * hi < 2 ^ 63)%Z → base_cost_high64 r = Z.max (sqft * hi) mn).
Proof.
  cbn [estimate64 base_cost_low64 base_cost_high64].
  rewrite !py_max_int_max. repeat split; try lia.
  - intros Hlo. by rewrite int64_wrap_in_range.
  - intros Hhi. by rewrite int64_wrap_in_range.
Qed.

Lemma base_cost64_floor_witness :
  base_cost_high64 (estimate64 10 15 100 150 5000 float_1_2 float_1_1 40 0 0) = 6000%Z.
Proof.
  refine (proj2 (proj2 (proj2 (base_cost64_floor 10 15 100 150 5000
            float_1_2 float_1_1 40 0 0))) _).
  vm_compute. split; [discriminate | reflexivity].
Defined.

(** C1.  The script at the largest square footage its number input
    accepts, with whole-number rates 1000 and 1100 and a minimum cost
    of 5000: the low product still fits int64, the high product wraps
    to a negative number and the minimum takes its place, and the low
    final total comes out above the high one. *)
Theorem final_total_low_exceeds_high_on_overflow :
  let r := estimate64 10 15 1000 1100 5000 float_1_2 float_1_1
             largest_square_footage 0 0 in
  base_cost_low64 r = (largest_square_footage * 1000)%Z
  ∧ int64_wrap (largest_square_footage * 1100) = (-8538824893494461516)%Z
  ∧ base_cost_high64 r = 5000%Z
  ∧ PrimFloat.ltb (final_total_high64 r) (final_total_low64 r) = true.
Proof. vm_compute. repeat split. Qed.

(** C3.  The script at the largest square footage its number input
    accepts, with a whole-number high rate of 1500 and a minimum cost
    of 5000: the int64 product wraps, and the high base cost is the
    minimum, 5000, where the larger of the product and the minimum is
    13510798882111486500. *)
Theorem base_cost_high_is_minimum_on_overflow :
  let r := estimate64 10 15 1000 1500 5000 float_1_2 float_1_1
             largest_square_footage 0 0 in
  base_cost_high64 r = 5000%Z
  ∧ Z.max (largest_square_footage * 1500) 5000 = 13510798882111486500%Z.
Proof. vm_compute. repeat split. Qed.

